(** * xprintidle: the idle-time query, its DPMS workaround and the printer

    A shallow embedding of [src/xprintidle.c].  The C integers are kept as
    [Z] with the wrap-around of every conversion written out; the calls into
    Xlib are run against an explicit record of what the server answers, in a
    state monad over the observable world (the two output streams, the open
    display connections, the allocated info blocks and the log of Xlib
    calls).  The target is LP64: [int] and [unsigned] have 32 bits,
    [unsigned long] and [uint64_t] 64. *)

From Stdlib Require Import ZArith Lia Bool List String Ascii.
From Stdlib Require Import DecimalString.
From ExtLib Require Import Structures.Monad Structures.MonadState.
From ExtLib Require Import Data.Monads.StateMonad.
Import ListNotations.
Import MonadNotation.

Local Open Scope Z_scope.

(** ** Machine integers *)

Module CInt.

(** [unsigned long] and [uint64_t] on an LP64 target: 64 bits. *)
Definition ULONG_MAX1 : Z := 2 ^ 64.
Definition UINT_MAX1 : Z := 2 ^ 32.
Definition INT_MIN : Z := - 2 ^ 31.
Definition INT_MAX : Z := 2 ^ 31 - 1.
Definition CARD16_MAX1 : Z := 2 ^ 16.

(** Conversion of an integer value to [unsigned long] / [uint64_t]. *)
Definition to_ulong (x : Z) : Z := x mod ULONG_MAX1.

(** The cast [(unsigned)e]. *)
Definition to_uint (x : Z) : Z := x mod UINT_MAX1.

(** Conversion to [int], two's complement: the result an LP64 compiler
    gives for a value that does not fit. *)
Definition to_int (x : Z) : Z := (x + 2 ^ 31) mod UINT_MAX1 - 2 ^ 31.

(** [int] addition and multiplication (operands already promoted). *)
Definition int_add (a b : Z) : Z := to_int (a + b).
Definition int_mul (a b : Z) : Z := to_int (a * b).

Definition is_ulong (x : Z) : Prop := 0 <= x < ULONG_MAX1.
Definition is_int (x : Z) : Prop := INT_MIN <= x <= INT_MAX.
Definition is_card16 (x : Z) : Prop := 0 <= x < CARD16_MAX1.

End CInt.
Import CInt.

(** ** The DPMS answers of the server *)

(** Modelled from the spec: the four power modes On, Standby, Suspend, Off of
    the DPMS state; their numbers are the ones of X11's [dpmsconst.h], which
    the source includes and which is not part of the repository. *)
Definition DPMSModeOn : Z := 0.
(** Modelled from the spec: the mode Standby ([dpmsconst.h]: 1). *)
Definition DPMSModeStandby : Z := 1.
(** Modelled from the spec: the mode Suspend ([dpmsconst.h]: 2). *)
Definition DPMSModeSuspend : Z := 2.
(** Modelled from the spec: the mode Off ([dpmsconst.h]: 3). *)
Definition DPMSModeOff : Z := 3.

(** What the four DPMS requests of [workaroundCreepyXServer] answer:
    [DPMSQueryExtension], [DPMSCapable], [DPMSGetTimeouts] (three [CARD16]
    seconds) and [DPMSInfo] (a [CARD16] power level and a [BOOL]). *)
Record DPMS : Type := mkDPMS {
  dpms_extension : bool;
  dpms_capable : bool;
  standby : Z;
  suspend : Z;
  off : Z;
  state : Z;
  onoff : bool
}.

Definition wf_DPMS (d : DPMS) : Prop :=
  is_card16 (standby d) /\ is_card16 (suspend d) /\ is_card16 (off d) /\
  is_card16 (state d).

(** ** The workaround *)

(** [standby * 1000], [(suspend + standby) * 1000] and
    [(off + suspend + standby) * 1000]: the [CARD16] operands are promoted to
    [int] and the whole expression is evaluated in [int]. *)
Definition standby_ms (d : DPMS) : Z := int_mul (standby d) 1000.
Definition suspend_ms (d : DPMS) : Z :=
  int_mul (int_add (suspend d) (standby d)) 1000.
Definition off_ms (d : DPMS) : Z :=
  int_mul (int_add (int_add (off d) (suspend d)) (standby d)) 1000.

(** [if (idleTime < (unsigned)(t)) idleTime += (t);] with [t] an [int]
    expression: the comparison is made in [unsigned long], the sum too. *)
Definition add_if_below (idleTime t : Z) : Z :=
  if idleTime <? to_ulong (to_uint t)
  then to_ulong (idleTime + to_ulong t)
  else idleTime.

Definition workaroundCreepyXServer (d : DPMS) (idleTime : Z) : Z :=
  if negb (dpms_extension d) then idleTime
  else if negb (dpms_capable d) then idleTime
  else if negb (onoff d) then idleTime
  else if state d =? DPMSModeStandby then add_if_below idleTime (standby_ms d)
  else if state d =? DPMSModeSuspend then add_if_below idleTime (suspend_ms d)
  else if state d =? DPMSModeOff then add_if_below idleTime (off_ms d)
  else idleTime.

(** The branch of [get_x_idletime] on the vendor release. *)
Definition idle_for_release (vendrel : Z) (d : DPMS) (ssi_idle : Z) : Z :=
  if vendrel <? 12000000 then workaroundCreepyXServer d ssi_idle
  else ssi_idle.

(** DPMS is in force: the extension answers, the server is capable and the
    feature is switched on. *)
Definition dpms_active (d : DPMS) : bool :=
  dpms_extension d && dpms_capable d && onoff d.

(** ** The observable world and the Xlib calls *)

Local Open Scope string_scope.

(** The line feed of the C string literals. *)
Definition nl : string := String (ascii_of_nat 10) EmptyString.

Inductive XCall : Type :=
| CallXOpenDisplay
| CallXScreenSaverQueryExtension
| CallXScreenSaverAllocInfo
| CallXScreenSaverQueryInfo
| CallVendorRelease
| CallXFree
| CallXCloseDisplay.

(** What a run can be observed to do: the bytes written to the two streams,
    the display connections currently open, the info blocks currently
    allocated, and the Xlib calls made so far (oldest first). *)
Record World : Type := mkWorld {
  w_stdout : string;
  w_stderr : string;
  w_displays : nat;
  w_infos : nat;
  w_calls : list XCall
}.

Definition world0 : World := mkWorld "" "" 0 0 [].

(** What the server (and the allocator) answer to the calls of
    [get_x_idletime]: whether [XOpenDisplay] returns a display, whether
    [XScreenSaverQueryExtension], [XScreenSaverAllocInfo] and
    [XScreenSaverQueryInfo] succeed, the [idle] field ([unsigned long]) of
    the info block, the [int] of [VendorRelease], and the DPMS answers. *)
Record Server : Type := mkServer {
  open_display : bool;
  saver_extension : bool;
  alloc_info : bool;
  query_info : bool;
  ssi_idle : Z;
  vendor_release : Z;
  dpms : DPMS
}.

Definition wf_Server (srv : Server) : Prop :=
  is_ulong (ssi_idle srv) /\ is_int (vendor_release srv) /\ wf_DPMS (dpms srv).

Definition X : Type -> Type := StateMonad.state World.

Local Open Scope monad_scope.

Definition log_call (c : XCall) : X unit :=
  modify (fun w => mkWorld (w_stdout w) (w_stderr w) (w_displays w)
                           (w_infos w) (w_calls w ++ [c])) ;;
  ret tt.

Definition put_stdout (s : string) : X unit :=
  modify (fun w => mkWorld (w_stdout w ++ s) (w_stderr w) (w_displays w)
                           (w_infos w) (w_calls w)) ;;
  ret tt.

Definition put_stderr (s : string) : X unit :=
  modify (fun w => mkWorld (w_stdout w) (w_stderr w ++ s) (w_displays w)
                           (w_infos w) (w_calls w)) ;;
  ret tt.

Definition set_displays (f : nat -> nat) : X unit :=
  modify (fun w => mkWorld (w_stdout w) (w_stderr w) (f (w_displays w))
                           (w_infos w) (w_calls w)) ;;
  ret tt.

Definition set_infos (f : nat -> nat) : X unit :=
  modify (fun w => mkWorld (w_stdout w) (w_stderr w) (w_displays w)
                           (f (w_infos w)) (w_calls w)) ;;
  ret tt.

(** [XOpenDisplay(NULL)]: [true] stands for a display, [false] for [NULL]. *)
Definition XOpenDisplay (srv : Server) : X bool :=
  log_call CallXOpenDisplay ;;
  if open_display srv then set_displays S ;; ret true else ret false.

Definition XCloseDisplay : X unit :=
  log_call CallXCloseDisplay ;; set_displays Nat.pred.

Definition XScreenSaverQueryExtension (srv : Server) : X bool :=
  log_call CallXScreenSaverQueryExtension ;; ret (saver_extension srv).

(** [XScreenSaverAllocInfo()]: [true] stands for a block, [false] for
    [NULL]. *)
Definition XScreenSaverAllocInfo (srv : Server) : X bool :=
  log_call CallXScreenSaverAllocInfo ;;
  if alloc_info srv then set_infos S ;; ret true else ret false.

Definition XScreenSaverQueryInfo (srv : Server) : X bool :=
  log_call CallXScreenSaverQueryInfo ;; ret (query_info srv).

Definition VendorRelease (srv : Server) : X Z :=
  log_call CallVendorRelease ;; ret (vendor_release srv).

Definition XFree : X unit :=
  log_call CallXFree ;; set_infos Nat.pred.

(** ** Printing *)

(** [%d] of an [int] and [%llu] of a [uint64_t]. *)
Definition fmt_d (n : Z) : string := NilZero.string_of_int (Z.to_int n).
Definition fmt_llu (n : Z) : string :=
  NilZero.string_of_uint (N.to_uint (Z.to_N n)).

(** The version [meson.build] passes as [XPRINTIDLE_VERSION]. *)
Definition XPRINTIDLE_VERSION : string := "0.3.0".

Definition EXIT_SUCCESS : Z := 0.
Definition EXIT_FAILURE : Z := 1.

Definition usage_text (name : string) : string :=
  "usage: " ++ name ++ " [OPTION]" ++ nl ++
  "Query the X server for the user's idle time" ++ nl ++
  nl ++
  "Options:" ++ nl ++
  "  -h, --help              Show this text" ++ nl ++
  "  -H, --human-readable    Output the time in a human readable format"
  ++ nl ++
  "  -v, --version           Print the program version" ++ nl ++
  nl ++
  "Report bugs at: https://github.com/g0hl1n/xprintidle/issues" ++ nl ++
  "Written by Magnus Henoch and others; see" ++ nl ++
  "https://github.com/g0hl1n/xprintidle/blob/master/AUTHORS" ++ nl.

Definition print_usage (name : string) : X unit :=
  put_stdout (usage_text name).

Definition print_version : X unit :=
  put_stdout ("xprintidle " ++ XPRINTIDLE_VERSION ++ nl).

(** ** The idle query *)

(** [Some v] is the return value 0 with [v] stored through [idle]; [None]
    is the return value -1, [*idle] untouched. *)
Definition get_x_idletime (srv : Server) : X (option Z) :=
  dpy <- XOpenDisplay srv ;;
  if negb dpy then
    put_stderr ("couldn't open display" ++ nl) ;;
    ret None
  else
    ext <- XScreenSaverQueryExtension srv ;;
    if negb ext then
      put_stderr ("screen saver extension not supported" ++ nl) ;;
      XCloseDisplay ;;
      ret None
    else
      ssi <- XScreenSaverAllocInfo srv ;;
      if negb ssi then
        put_stderr ("couldn't allocate screen saver info" ++ nl) ;;
        XCloseDisplay ;;
        ret None
      else
        got <- XScreenSaverQueryInfo srv ;;
        if negb got then
          put_stderr ("couldn't query screen saver info" ++ nl) ;;
          XFree ;;
          XCloseDisplay ;;
          ret None
        else
          vendrel <- VendorRelease srv ;;
          let idle :=
            to_ulong (idle_for_release vendrel (dpms srv) (ssi_idle srv)) in
          XFree ;;
          XCloseDisplay ;;
          ret (Some idle).

(** ** The human-readable printer *)

Definition convFacs : list Z :=
  [24 * 60 * 60 * 1000; 60 * 60 * 1000; 60 * 1000; 1000; 1].
Definition names : list string :=
  ["day"; "hour"; "minute"; "second"; "millisecond"].

(** The body of the [for] loop, run over the remaining units; the state of
    the loop is [time] and [firstPrint], the latter is returned. *)
Fixpoint print_units (units : list (Z * string)) (time : Z)
    (firstPrint : bool) : X bool :=
  match units with
  | [] => ret firstPrint
  | (fac, name) :: rest =>
      let unitMag := to_int (time / to_ulong fac) in
      let time' := time mod to_ulong fac in
      if (unitMag =? 0)%Z then print_units rest time' firstPrint
      else
        (if negb firstPrint then put_stdout ", " else ret tt) ;;
        put_stdout (fmt_d unitMag ++ " " ++ name) ;;
        (if negb (unitMag =? 1)%Z then put_stdout "s" else ret tt) ;;
        print_units rest time' false
  end.

Definition print_human_time (time : Z) : X unit :=
  firstPrint <- print_units (combine convFacs names) time true ;;
  (if (firstPrint : bool)
   then put_stdout ("0 " ++ last names "" ++ "s") else ret tt) ;;
  put_stdout nl.

(** ** The program *)

(** [argv0] is [argv[0]] and [args] the arguments after it, so [argc] is
    [1 + length args].  The result is the exit status. *)
Definition main (argv0 : string) (args : list string) (srv : Server) : X Z :=
  let query (human : bool) : X Z :=
    r <- get_x_idletime srv ;;
    match r with
    | None => ret EXIT_FAILURE
    | Some idle =>
        if human then print_human_time idle ;; ret EXIT_SUCCESS
        else put_stdout (fmt_llu idle ++ nl) ;; ret EXIT_SUCCESS
    end in
  match args with
  | [] => query false
  | arg1 :: _ =>
      if (arg1 =? "-v") || (arg1 =? "--version") then
        print_version ;; ret EXIT_SUCCESS
      else if (arg1 =? "-H") || (arg1 =? "--human-readable") then
        query true
      else if (arg1 =? "-h") || (arg1 =? "--help") then
        print_usage argv0 ;; ret EXIT_FAILURE
      else query false
  end.

(** Running a computation from the empty world. *)
Definition run {A : Type} (c : X A) : A * World := runState c world0.
Definition exit_status {A : Type} (c : X A) : A := fst (run c).
Definition final {A : Type} (c : X A) : World := snd (run c).

Definition XCall_eqb (c c' : XCall) : bool :=
  match c, c' with
  | CallXOpenDisplay, CallXOpenDisplay
  | CallXScreenSaverQueryExtension, CallXScreenSaverQueryExtension
  | CallXScreenSaverAllocInfo, CallXScreenSaverAllocInfo
  | CallXScreenSaverQueryInfo, CallXScreenSaverQueryInfo
  | CallVendorRelease, CallVendorRelease
  | CallXFree, CallXFree
  | CallXCloseDisplay, CallXCloseDisplay => true
  | _, _ => false
  end.

(** Whether, and how often, a call appears in the log. *)
Definition made_call (c : XCall) (w : World) : bool :=
  existsb (XCall_eqb c) (w_calls w).
Definition count_call (c : XCall) (l : list XCall) : nat :=
  List.length (filter (XCall_eqb c) l).

(** Number of line feeds in a string: the number of lines written. *)
Fixpoint count_lines (s : string) : nat :=
  match s with
  | EmptyString => 0%nat
  | String c s' =>
      ((if Ascii.eqb c (ascii_of_nat 10) then 1 else 0) + count_lines s')%nat
  end.

(** ** Following the spec's words *)

(** The corrector of the spec: per mode, add the cumulative timeout when the
    raw value is below it; written with exact integers. *)
Definition add_below_spec (raw threshold : Z) : Z :=
  if (raw <? threshold)%Z then (raw + threshold)%Z else raw.

(** The human-readable format of the spec: the five components by integer
    division, the non-zero ones printed with their unit, the unit in the
    plural unless the magnitude is 1, separated by commas; [0 milliseconds]
    when all are zero. *)
Definition components_spec (ms : Z) : list Z :=
  [(ms / 86400000)%Z; (ms mod 86400000 / 3600000)%Z;
   (ms mod 3600000 / 60000)%Z; (ms mod 60000 / 1000)%Z; (ms mod 1000 / 1)%Z].

Definition label_spec (p : Z * string) : string :=
  fmt_llu (fst p) ++ " " ++ snd p ++ (if (fst p =? 1)%Z then "" else "s").

Definition labels_spec (l : list (Z * string)) : list string :=
  map label_spec (filter (fun p => negb (fst p =? 0)%Z) l).

Definition human_readable_spec (ms : Z) : string :=
  match labels_spec (combine (components_spec ms) names) with
  | [] => "0 milliseconds"
  | parts => String.concat ", " parts
  end.

(** The exact quotients the loop of [print_human_time] goes through. *)
Fixpoint magnitudes (facs : list Z) (time : Z) : list Z :=
  match facs with
  | [] => []
  | fac :: rest => (time / fac)%Z :: magnitudes rest (time mod fac)%Z
  end.

(** The labels as the loop writes them: a comma before each but the first
    one printed. *)
Fixpoint join_after (firstPrint : bool) (parts : list string) : string :=
  match parts with
  | [] => ""
  | p :: ps => (if firstPrint then p else ", " ++ p) ++ join_after false ps
  end.

(** The world after some more output on stdout. *)
Definition add_stdout (w : World) (s : string) : World :=
  mkWorld (w_stdout w ++ s) (w_stderr w) (w_displays w) (w_infos w)
          (w_calls w).

(** ** Earlier versions of the program *)

(** [%lu] of an [unsigned long]. *)
Definition fmt_lu (n : Z) : string :=
  NilZero.string_of_uint (N.to_uint (Z.to_N n)).

(** [src/unnamed/part_000]: no options, the query written out in [main]. *)
Module Part000.

Definition usage (name : string) : X unit :=
  put_stderr ("Usage:" ++ nl ++
              name ++ nl ++
              "That is, no command line arguments.  The user's idle time"
              ++ nl ++
              "in milliseconds is printed on stdout." ++ nl).

(** The workaround with its tests nested instead of returning early. *)
Definition workaroundCreepyXServer (d : DPMS) (idleTime : Z) : Z :=
  if dpms_extension d then
    if dpms_capable d then
      if onoff d then
        if (state d =? DPMSModeStandby)%Z
        then add_if_below idleTime (standby_ms d)
        else if (state d =? DPMSModeSuspend)%Z
        then add_if_below idleTime (suspend_ms d)
        else if (state d =? DPMSModeOff)%Z
        then add_if_below idleTime (off_ms d)
        else idleTime
      else idleTime
    else idleTime
  else idleTime.

Definition main (argv0 : string) (args : list string) (srv : Server) : X Z :=
  match args with
  | _ :: _ => usage argv0 ;; ret 1%Z
  | [] =>
      dpy <- XOpenDisplay srv ;;
      if negb dpy then
        put_stderr ("couldn't open display" ++ nl) ;;
        ret 1%Z
      else
        ext <- XScreenSaverQueryExtension srv ;;
        if negb ext then
          put_stderr ("screen saver extension not supported" ++ nl) ;;
          ret 1%Z
        else
          ssi <- XScreenSaverAllocInfo srv ;;
          if negb ssi then
            put_stderr ("couldn't allocate screen saver info" ++ nl) ;;
            ret 1%Z
          else
            got <- XScreenSaverQueryInfo srv ;;
            if negb got then
              put_stderr ("couldn't query screen saver info" ++ nl) ;;
              ret 1%Z
            else
              vendrel <- VendorRelease srv ;;
              let idle :=
                if (vendrel <? 12000000)%Z
                then workaroundCreepyXServer (dpms srv) (ssi_idle srv)
                else ssi_idle srv in
              put_stdout (fmt_lu idle ++ nl) ;;
              XFree ;;
              XCloseDisplay ;;
              ret 0%Z
  end.

End Part000.

(** [src/unnamed/part_001], first program: the oldest version, without the
    test on the vendor release; the info block is a local of [main], so
    nothing is allocated. *)
Module Part001a.

Definition usage (name : string) : X unit := Part000.usage name.

Definition workaroundCreepyXServer (d : DPMS) (_idleTime : Z) : Z :=
  Part000.workaroundCreepyXServer d _idleTime.

Definition main (argv0 : string) (args : list string) (srv : Server) : X Z :=
  match args with
  | _ :: _ => usage argv0 ;; ret 1%Z
  | [] =>
      dpy <- XOpenDisplay srv ;;
      if negb dpy then
        put_stderr ("couldn't open display" ++ nl) ;;
        ret 1%Z
      else
        ext <- XScreenSaverQueryExtension srv ;;
        if negb ext then
          put_stderr ("screen saver extension not supported" ++ nl) ;;
          ret 1%Z
        else
          got <- XScreenSaverQueryInfo srv ;;
          if negb got then
            put_stderr ("couldn't query screen saver info" ++ nl) ;;
            ret 1%Z
          else
            put_stdout
              (fmt_lu (workaroundCreepyXServer (dpms srv) (ssi_idle srv))
               ++ nl) ;;
            XCloseDisplay ;;
            ret 0%Z
  end.

End Part001a.

(** [src/unnamed/part_001], second program: [get_x_idletime] split off, the
    options [-h] and [-v] only. *)
Module Part001b.

Definition usage_text (name : string) : string :=
  "usage: " ++ name ++ " [OPTION]" ++ nl ++
  "Query the X server for the user's idle time" ++ nl ++
  nl ++
  "Options:" ++ nl ++
  "  -h, --help        Show this text" ++ nl ++
  "  -v, --version     Print the program version" ++ nl ++
  nl ++
  "Report bugs at: https://github.com/g0hl1n/xprintidle/issues" ++ nl ++
  "Written by Magnus Henoch and others; see" ++ nl ++
  "https://github.com/g0hl1n/xprintidle/blob/master/AUTHORS" ++ nl.

Definition print_usage (name : string) : X unit :=
  put_stdout (usage_text name).

Definition print_version : X unit :=
  put_stdout ("xprintidle " ++ XPRINTIDLE_VERSION ++ nl).

Definition workaroundCreepyXServer (d : DPMS) (idleTime : Z) : Z :=
  Part000.workaroundCreepyXServer d idleTime.

Definition get_x_idletime (srv : Server) : X (option Z) :=
  dpy <- XOpenDisplay srv ;;
  if negb dpy then
    put_stderr ("couldn't open display" ++ nl) ;;
    ret None
  else
    ext <- XScreenSaverQueryExtension srv ;;
    if negb ext then
      put_stderr ("screen saver extension not supported" ++ nl) ;;
      XCloseDisplay ;;
      ret None
    else
      ssi <- XScreenSaverAllocInfo srv ;;
      if negb ssi then
        put_stderr ("couldn't allocate screen saver info" ++ nl) ;;
        XCloseDisplay ;;
        ret None
      else
        got <- XScreenSaverQueryInfo srv ;;
        if negb got then
          put_stderr ("couldn't query screen saver info" ++ nl) ;;
          XFree ;;
          XCloseDisplay ;;
          ret None
        else
          vendrel <- VendorRelease srv ;;
          let idle :=
            to_ulong
              (if (vendrel <? 12000000)%Z
               then workaroundCreepyXServer (dpms srv) (ssi_idle srv)
               else ssi_idle srv) in
          XFree ;;
          XCloseDisplay ;;
          ret (Some idle).

Definition main (argv0 : string) (args : list string) (srv : Server) : X Z :=
  match args with
  | arg1 :: _ =>
      if (arg1 =? "-v") || (arg1 =? "--version") then
        print_version ;; ret 0%Z
      else
        print_usage argv0 ;; ret 1%Z
  | [] =>
      r <- get_x_idletime srv ;;
      match r with
      | None => ret 1%Z
      | Some idle => put_stdout (fmt_lu idle ++ nl) ;; ret 0%Z
      end
  end.

End Part001b.

(** ** Observations used in the statements *)

(** The cumulative timeout, in milliseconds, of the mode the server is in;
    0 when DPMS is not in force or the mode has no timeout. *)
Definition mode_threshold (d : DPMS) : Z :=
  if negb (dpms_active d) then 0%Z
  else if (state d =? DPMSModeStandby)%Z then (standby d * 1000)%Z
  else if (state d =? DPMSModeSuspend)%Z
       then ((suspend d + standby d) * 1000)%Z
  else if (state d =? DPMSModeOff)%Z
       then ((off d + suspend d + standby d) * 1000)%Z
  else 0%Z.

(** The part of [main] after the options, its local [query]: the query,
    then the output in the format asked for. *)
Definition query_and_print (srv : Server) (human : bool) : X Z :=
  r <- get_x_idletime srv ;;
  match r with
  | None => ret EXIT_FAILURE
  | Some idle =>
      if human then print_human_time idle ;; ret EXIT_SUCCESS
      else put_stdout (fmt_llu idle ++ nl) ;; ret EXIT_SUCCESS
  end.

(** The first argument is one of the six option spellings. *)
Definition known_option (arg1 : string) : bool :=
  (arg1 =? "-v") || (arg1 =? "--version") ||
  (arg1 =? "-H") || (arg1 =? "--human-readable") ||
  (arg1 =? "-h") || (arg1 =? "--help").

(** Sample servers. *)
Definition dpms_demo : DPMS := mkDPMS true true 5 10 20 DPMSModeStandby true.
Definition srv_demo : Server :=
  mkServer true true true true 2000 11999999 dpms_demo.
Definition srv_down : Server :=
  mkServer false true true true 0 11999999 dpms_demo.

Local Close Scope string_scope.
Local Open Scope Z_scope.

(** * Properties *)

(** ** Integer conversions *)

Lemma to_int_small (x : Z) : is_int x -> to_int x = x.
Proof.
  unfold is_int, INT_MIN, INT_MAX, to_int, UINT_MAX1. intros H.
  rewrite Z.mod_small; lia.
Qed.

Lemma to_uint_small (x : Z) : 0 <= x < UINT_MAX1 -> to_uint x = x.
Proof. intros H. unfold to_uint. now apply Z.mod_small. Qed.

Lemma to_ulong_small (x : Z) : is_ulong x -> to_ulong x = x.
Proof. intros H. unfold to_ulong. now apply Z.mod_small. Qed.

Lemma to_ulong_range (x : Z) : is_ulong (to_ulong x).
Proof.
  unfold is_ulong, to_ulong, ULONG_MAX1. apply Z.mod_pos_bound. lia.
Qed.

(** The three thresholds, as the [int] expressions compute them. *)
Lemma thresholds_exact (d : DPMS) :
  wf_DPMS d ->
  standby_ms d = standby d * 1000 /\
  suspend_ms d = (suspend d + standby d) * 1000 /\
  off_ms d = (off d + suspend d + standby d) * 1000.
Proof.
  unfold wf_DPMS, is_card16, CARD16_MAX1.
  intros (Hs & Hu & Ho & _).
  unfold standby_ms, suspend_ms, off_ms, int_add, int_mul.
  repeat split.
  - apply to_int_small. unfold is_int, INT_MIN, INT_MAX. lia.
  - rewrite (to_int_small (suspend d + standby d))
      by (unfold is_int, INT_MIN, INT_MAX; lia).
    apply to_int_small. unfold is_int, INT_MIN, INT_MAX. lia.
  - rewrite (to_int_small (off d + suspend d))
      by (unfold is_int, INT_MIN, INT_MAX; lia).
    rewrite (to_int_small (off d + suspend d + standby d))
      by (unfold is_int, INT_MIN, INT_MAX; lia).
    apply to_int_small. unfold is_int, INT_MIN, INT_MAX. lia.
Qed.

(** With a threshold that fits, the guarded addition of the code is the
    exact one. *)
Lemma add_if_below_exact (raw t : Z) :
  is_ulong raw -> 0 <= t <= 196605000 ->
  add_if_below raw t = add_below_spec raw t.
Proof.
  unfold is_ulong, ULONG_MAX1. intros Hr Ht.
  unfold add_if_below, add_below_spec.
  rewrite (to_uint_small t) by (unfold UINT_MAX1; lia).
  rewrite (to_ulong_small t) by (unfold is_ulong, ULONG_MAX1; lia).
  destruct (raw <? t) eqn:E; [| reflexivity].
  apply Z.ltb_lt in E.
  apply to_ulong_small. unfold is_ulong, ULONG_MAX1. lia.
Qed.

Lemma add_below_spec_bounds (raw t : Z) :
  0 <= t -> raw <= add_below_spec raw t <= raw + t.
Proof. unfold add_below_spec. intros Ht. destruct (raw <? t); lia. Qed.

Lemma add_below_spec_idem (raw t : Z) :
  0 <= raw -> add_below_spec (add_below_spec raw t) t = add_below_spec raw t.
Proof.
  intros Hr. unfold add_below_spec.
  destruct (raw <? t) eqn:E.
  - apply Z.ltb_lt in E.
    destruct (raw + t <? t) eqn:E'; [apply Z.ltb_lt in E'; lia | reflexivity].
  - now rewrite E.
Qed.

Lemma add_if_below_ulong (raw t : Z) :
  is_ulong raw -> is_ulong (add_if_below raw t).
Proof.
  intros H. unfold add_if_below.
  destruct (raw <? _); [apply to_ulong_range | exact H].
Qed.

Lemma workaround_ulong (d : DPMS) (raw : Z) :
  is_ulong raw -> is_ulong (workaroundCreepyXServer d raw).
Proof.
  intros H. unfold workaroundCreepyXServer.
  repeat match goal with
         | |- context [if ?b then _ else _] => destruct b
         end; auto using add_if_below_ulong.
Qed.

(** The workaround in closed form: a case distinction on the mode over
    exact integers. *)
Lemma workaround_closed_form (d : DPMS) (raw : Z) :
  wf_DPMS d -> is_ulong raw ->
  workaroundCreepyXServer d raw =
    (if negb (dpms_active d) then raw
     else if state d =? DPMSModeStandby
          then add_below_spec raw (standby d * 1000)
     else if state d =? DPMSModeSuspend
          then add_below_spec raw ((suspend d + standby d) * 1000)
     else if state d =? DPMSModeOff
          then add_below_spec raw ((off d + suspend d + standby d) * 1000)
     else raw).
Proof.
  intros Hd Hr.
  destruct (thresholds_exact d Hd) as (E1 & E2 & E3).
  unfold wf_DPMS, is_card16, CARD16_MAX1 in Hd.
  destruct Hd as (Hs & Hu & Ho & _).
  unfold workaroundCreepyXServer, dpms_active.
  rewrite E1, E2, E3.
  destruct (dpms_extension d), (dpms_capable d), (onoff d); cbn [negb andb];
    try reflexivity.
  rewrite !add_if_below_exact by (auto; lia).
  reflexivity.
Qed.

(** ** The corrector *)

Ltac case_mode d :=
  unfold DPMSModeOn, DPMSModeStandby, DPMSModeSuspend, DPMSModeOff in *;
  destruct (Z.eqb_spec (state d) 1);
  destruct (Z.eqb_spec (state d) 2);
  destruct (Z.eqb_spec (state d) 3);
  try lia.

(** C1: for every DPMS snapshot and raw idle value the workaround returns the
    raw value when the DPMS extension query fails, the server is not capable,
    DPMS is disabled, the mode is On or the mode is none of the four; in
    Standby, Suspend and Off it adds the cumulative timeout in milliseconds
    exactly when the raw value is below it, and returns the raw value
    otherwise. *)
Theorem workaround_by_mode (d : DPMS) (raw : Z) :
  wf_DPMS d -> is_ulong raw ->
  let r := workaroundCreepyXServer d raw in
  let t1 := standby d * 1000 in
  let t2 := (suspend d + standby d) * 1000 in
  let t3 := (off d + suspend d + standby d) * 1000 in
  (dpms_extension d = false -> r = raw) /\
  (dpms_capable d = false -> r = raw) /\
  (onoff d = false -> r = raw) /\
  (state d = DPMSModeOn -> r = raw) /\
  (state d <> DPMSModeStandby -> state d <> DPMSModeSuspend ->
   state d <> DPMSModeOff -> r = raw) /\
  (dpms_active d = true -> state d = DPMSModeStandby ->
   (raw < t1 -> r = raw + t1) /\ (t1 <= raw -> r = raw)) /\
  (dpms_active d = true -> state d = DPMSModeSuspend ->
   (raw < t2 -> r = raw + t2) /\ (t2 <= raw -> r = raw)) /\
  (dpms_active d = true -> state d = DPMSModeOff ->
   (raw < t3 -> r = raw + t3) /\ (t3 <= raw -> r = raw)).
Proof.
  intros Hd Hr r t1 t2 t3. subst r t1 t2 t3.
  rewrite (workaround_closed_form d raw Hd Hr).
  unfold dpms_active, add_below_spec.
  repeat split; intros;
    repeat match goal with
           | H : _ = false |- _ => rewrite H
           | H : _ && _ = true |- _ => rewrite H
           end;
    rewrite ?andb_false_r; cbn [negb andb]; try reflexivity;
    repeat match goal with
           | |- context [if negb ?b then _ else _] => destruct (negb b)
           end; try reflexivity; case_mode d;
    repeat match goal with
           | |- context [?a <? ?b] => destruct (Z.ltb_spec a b)
           end; lia.
Qed.

Lemma workaround_by_mode_witness :
  wf_DPMS dpms_demo /\ is_ulong 2000 /\
  workaroundCreepyXServer dpms_demo 2000 = 7000.
Proof.
  assert (Hd : wf_DPMS dpms_demo) by (vm_compute; intuition congruence).
  assert (Hr : is_ulong 2000) by (vm_compute; intuition congruence).
  split; [exact Hd | split; [exact Hr |]].
  destruct (workaround_by_mode dpms_demo 2000 Hd Hr)
    as (_ & _ & _ & _ & _ & Hst & _).
  destruct (Hst eq_refl eq_refl) as [Hadd _].
  exact (Hadd ltac:(vm_compute; reflexivity)).
Defined.

(** C4: whatever the vendor release and the DPMS snapshot, the value the
    workaround returns, the value chosen on the vendor release and the value
    a successful query hands back are never below the raw idle value. *)
Theorem corrected_ge_raw (srv : Server) :
  wf_Server srv ->
  let raw := ssi_idle srv in
  raw <= workaroundCreepyXServer (dpms srv) raw /\
  raw <= idle_for_release (vendor_release srv) (dpms srv) raw /\
  (forall v, exit_status (get_x_idletime srv) = Some v -> raw <= v).
Proof.
  intros (Hr & _ & Hd) raw. subst raw.
  assert (Hw : ssi_idle srv
               <= workaroundCreepyXServer (dpms srv) (ssi_idle srv)).
  { rewrite (workaround_closed_form _ _ Hd Hr).
    unfold wf_DPMS, is_card16, CARD16_MAX1 in Hd.
    repeat match goal with
           | |- context [if ?b then _ else _] => destruct b
           end; try lia; apply add_below_spec_bounds; lia. }
  assert (Hi : ssi_idle srv <=
               idle_for_release (vendor_release srv) (dpms srv) (ssi_idle srv)).
  { unfold idle_for_release. destruct (_ <? _); [exact Hw | lia]. }
  repeat split; [exact Hw | exact Hi |].
  intros v Hv.
  assert (Hu : is_ulong (idle_for_release (vendor_release srv) (dpms srv)
                           (ssi_idle srv))).
  { unfold idle_for_release. destruct (_ <? _); auto using workaround_ulong. }
  unfold exit_status, run, get_x_idletime, XOpenDisplay,
    XScreenSaverQueryExtension, XScreenSaverAllocInfo, XScreenSaverQueryInfo,
    VendorRelease in Hv.
  destruct (open_display srv), (saver_extension srv), (alloc_info srv),
    (query_info srv); cbn in Hv; try discriminate.
  injection Hv as <-. rewrite (to_ulong_small _ Hu). exact Hi.
Qed.

Lemma corrected_ge_raw_witness :
  wf_Server srv_demo /\
  2000 <= workaroundCreepyXServer dpms_demo 2000.
Proof.
  assert (Hs : wf_Server srv_demo) by (vm_compute; intuition congruence).
  split; [exact Hs |].
  exact (proj1 (corrected_ge_raw srv_demo Hs)).
Defined.

(** C9: for a fixed DPMS snapshot the workaround is idempotent: applied to
    its own result it changes nothing. *)
Theorem workaround_idempotent (d : DPMS) (raw : Z) :
  wf_DPMS d -> is_ulong raw ->
  workaroundCreepyXServer d (workaroundCreepyXServer d raw) =
  workaroundCreepyXServer d raw.
Proof.
  intros Hd Hr.
  rewrite (workaround_closed_form d _ Hd (workaround_ulong d raw Hr)).
  rewrite (workaround_closed_form d raw Hd Hr).
  destruct Hr as [Hr _].
  repeat match goal with
         | |- context [if ?b then _ else _] => destruct b
         end; auto using add_below_spec_idem.
Qed.

Lemma workaround_idempotent_witness :
  wf_DPMS dpms_demo /\ is_ulong 2000 /\
  workaroundCreepyXServer dpms_demo (workaroundCreepyXServer dpms_demo 2000) =
  workaroundCreepyXServer dpms_demo 2000.
Proof.
  assert (Hd : wf_DPMS dpms_demo) by (vm_compute; intuition congruence).
  assert (Hr : is_ulong 2000) by (vm_compute; intuition congruence).
  split; [exact Hd | split; [exact Hr |]].
  exact (workaround_idempotent dpms_demo 2000 Hd Hr).
Defined.

(** C10: for 16-bit timeouts every intermediate value of the three threshold
    expressions fits [int], so the wrap-around results are the exact products,
    each at most 196605000; the cast to [unsigned], the comparison and the
    addition are exact, and the result exceeds the raw value by at most
    196605000. *)
Theorem thresholds_no_overflow (d : DPMS) :
  wf_DPMS d ->
  let t1 := standby d * 1000 in
  let t2 := (suspend d + standby d) * 1000 in
  let t3 := (off d + suspend d + standby d) * 1000 in
  (is_int (suspend d + standby d) /\ is_int (off d + suspend d) /\
   is_int (off d + suspend d + standby d) /\
   is_int t1 /\ is_int t2 /\ is_int t3) /\
  (standby_ms d = t1 /\ suspend_ms d = t2 /\ off_ms d = t3) /\
  (0 <= t1 <= 196605000 /\ 0 <= t2 <= 196605000 /\ 0 <= t3 <= 196605000) /\
  (to_uint t1 = t1 /\ to_uint t2 = t2 /\ to_uint t3 = t3) /\
  (forall raw, is_ulong raw ->
     add_if_below raw (standby_ms d) = add_below_spec raw t1 /\
     add_if_below raw (suspend_ms d) = add_below_spec raw t2 /\
     add_if_below raw (off_ms d) = add_below_spec raw t3 /\
     raw <= workaroundCreepyXServer d raw <= raw + 196605000).
Proof.
  intros Hd t1 t2 t3.
  destruct (thresholds_exact d Hd) as (E1 & E2 & E3).
  pose proof Hd as (Hs & Hu & Ho & _).
  unfold is_card16, CARD16_MAX1 in Hs, Hu, Ho.
  assert (B1 : 0 <= t1 <= 196605000) by (subst t1; lia).
  assert (B2 : 0 <= t2 <= 196605000) by (subst t2; lia).
  assert (B3 : 0 <= t3 <= 196605000) by (subst t3; lia).
  split; [unfold is_int, INT_MIN, INT_MAX; repeat split; lia |].
  split; [auto |].
  split; [auto |].
  split; [repeat split; apply to_uint_small; unfold UINT_MAX1; lia |].
  intros raw Hr. rewrite E1, E2, E3.
  repeat split; try (apply add_if_below_exact; assumption).
  - rewrite (workaround_closed_form d raw Hd Hr).
    repeat match goal with
           | |- context [if ?b then _ else _] => destruct b
           end; try lia; apply add_below_spec_bounds; lia.
  - rewrite (workaround_closed_form d raw Hd Hr).
    repeat match goal with
           | |- context [if ?b then _ else _] => destruct b
           end; try lia.
    + pose proof (add_below_spec_bounds raw (standby d * 1000)). lia.
    + pose proof (add_below_spec_bounds raw ((suspend d + standby d) * 1000)).
      lia.
    + pose proof (add_below_spec_bounds raw
                    ((off d + suspend d + standby d) * 1000)).
      lia.
Qed.

Lemma thresholds_no_overflow_witness :
  wf_DPMS (mkDPMS true true 65535 65535 65535 DPMSModeOff true) /\
  off_ms (mkDPMS true true 65535 65535 65535 DPMSModeOff true) = 196605000.
Proof.
  assert (Hd : wf_DPMS (mkDPMS true true 65535 65535 65535 DPMSModeOff true))
    by (vm_compute; intuition congruence).
  split; [exact Hd |].
  destruct (thresholds_no_overflow _ Hd) as (_ & (_ & _ & E3) & _).
  exact E3.
Defined.

(** ** The idle query *)

Ltac run_query srv :=
  unfold exit_status, final, run, get_x_idletime, XOpenDisplay,
    XScreenSaverQueryExtension, XScreenSaverAllocInfo, XScreenSaverQueryInfo,
    VendorRelease;
  destruct (open_display srv) eqn:?, (saver_extension srv) eqn:?,
    (alloc_info srv) eqn:?, (query_info srv) eqn:?; cbn.

(** The query returns 0 exactly when all four steps succeed. *)
Lemma query_fails_iff (srv : Server) :
  exit_status (get_x_idletime srv) = None <->
  open_display srv && saver_extension srv && alloc_info srv && query_info srv
  = false.
Proof. run_query srv; split; intros H; congruence. Qed.

(** C2: when the query succeeds and the vendor release is at least 12000000
    the value handed back is the raw idle value of the server, whatever the
    DPMS answers are; below 12000000 it is the workaround applied to the raw
    value. *)
Theorem query_release_threshold (srv : Server) :
  is_ulong (ssi_idle srv) ->
  open_display srv = true -> saver_extension srv = true ->
  alloc_info srv = true -> query_info srv = true ->
  (12000000 <= vendor_release srv ->
   exit_status (get_x_idletime srv) = Some (ssi_idle srv)) /\
  (vendor_release srv < 12000000 ->
   exit_status (get_x_idletime srv) =
   Some (workaroundCreepyXServer (dpms srv) (ssi_idle srv))).
Proof.
  intros Hr Ho He Ha Hq.
  run_query srv; try discriminate.
  unfold idle_for_release.
  split; intros Hv.
  - destruct (Z.ltb_spec (vendor_release srv) 12000000); [lia |].
    now rewrite (to_ulong_small _ Hr).
  - destruct (Z.ltb_spec (vendor_release srv) 12000000); [| lia].
    now rewrite (to_ulong_small _ (workaround_ulong _ _ Hr)).
Qed.

Lemma query_release_threshold_witness :
  exit_status (get_x_idletime
                 (mkServer true true true true 2000 12000000 dpms_demo))
  = Some 2000 /\
  exit_status (get_x_idletime
                 (mkServer true true true true 2000 11999999 dpms_demo))
  = Some 7000.
Proof.
  assert (Hr : is_ulong 2000) by (vm_compute; intuition congruence).
  split.
  - exact (proj1 (query_release_threshold
                    (mkServer true true true true 2000 12000000 dpms_demo)
                    Hr eq_refl eq_refl eq_refl eq_refl)
                 ltac:(vm_compute; discriminate)).
  - exact (proj2 (query_release_threshold
                    (mkServer true true true true 2000 11999999 dpms_demo)
                    Hr eq_refl eq_refl eq_refl eq_refl)
                 ltac:(vm_compute; reflexivity)).
Defined.

Local Open Scope string_scope.

(** C8: the query leaves as many display connections open as it found,
    from any starting world; when [XOpenDisplay] yields a display the log
    holds one [XCloseDisplay], as the last call before the return, on the
    success path and on each of the three failure paths; when it yields
    [NULL] nothing is closed.  The info block is freed likewise. *)
Theorem display_always_closed (srv : Server) :
  (forall w : World,
     w_displays (snd (runState (get_x_idletime srv) w)) = w_displays w /\
     w_infos (snd (runState (get_x_idletime srv) w)) = w_infos w) /\
  (let calls := w_calls (final (get_x_idletime srv)) in
   count_call CallXOpenDisplay calls = 1%nat /\
   if open_display srv
   then count_call CallXCloseDisplay calls = 1%nat /\
        last calls CallXOpenDisplay = CallXCloseDisplay
   else count_call CallXCloseDisplay calls = 0%nat).
Proof.
  split.
  - intros w. run_query srv; split; reflexivity.
  - run_query srv; repeat split; reflexivity.
Qed.

(** C5: when the query fails, its only output is one line on stderr, the
    message of the first step that failed, and nothing on stdout; a run of
    the program that reaches the query then writes that line and nothing
    else and exits with status 1. *)
Theorem query_failure_reporting (argv0 : string) (args : list string)
    (srv : Server) :
  exit_status (get_x_idletime srv) = None ->
  let q := final (get_x_idletime srv) in
  let m := final (main argv0 args srv) in
  (open_display srv = false ->
   w_stderr q = "couldn't open display" ++ nl) /\
  (open_display srv = true -> saver_extension srv = false ->
   w_stderr q = "screen saver extension not supported" ++ nl) /\
  (open_display srv = true -> saver_extension srv = true ->
   alloc_info srv = false ->
   w_stderr q = "couldn't allocate screen saver info" ++ nl) /\
  (open_display srv = true -> saver_extension srv = true ->
   alloc_info srv = true -> query_info srv = false ->
   w_stderr q = "couldn't query screen saver info" ++ nl) /\
  count_lines (w_stderr q) = 1%nat /\
  w_stdout q = "" /\
  (made_call CallXOpenDisplay m = true ->
   w_stderr m = w_stderr q /\ w_stdout m = "" /\
   exit_status (main argv0 args srv) = EXIT_FAILURE /\ EXIT_FAILURE <> 0%Z).
Proof.
  intros Hfail q m. subst q m.
  assert (Hmain :
    made_call CallXOpenDisplay (final (main argv0 args srv)) = true ->
    run (main argv0 args srv) =
    run (r <- get_x_idletime srv ;;
         match r with
         | None => ret EXIT_FAILURE
         | Some idle => put_stdout (fmt_llu idle ++ nl) ;; ret EXIT_SUCCESS
         end)).
  { unfold final, run, main.
    destruct args as [| arg1 rest].
    - revert Hfail. run_query srv; intros; try discriminate; reflexivity.
    - destruct (_ || _); [cbn; discriminate |].
      destruct (_ || _).
      { revert Hfail. run_query srv; intros; try discriminate; reflexivity. }
      destruct (_ || _); [cbn; discriminate |].
      revert Hfail. run_query srv; intros; try discriminate; reflexivity. }
  repeat split; intros;
    try (revert Hfail; run_query srv; intros; congruence).
  - unfold final. rewrite (Hmain H).
    revert Hfail. run_query srv; intros; congruence.
  - unfold final. rewrite (Hmain H).
    revert Hfail. run_query srv; intros; congruence.
  - unfold exit_status. rewrite (Hmain H).
    revert Hfail. run_query srv; intros; congruence.
  - discriminate.
Qed.

Lemma query_failure_reporting_witness :
  exit_status (get_x_idletime srv_down) = None /\
  w_stderr (final (main "xprintidle" [] srv_down))
  = "couldn't open display" ++ nl /\
  exit_status (main "xprintidle" [] srv_down) = 1%Z.
Proof.
  assert (Hf : exit_status (get_x_idletime srv_down) = None) by reflexivity.
  split; [exact Hf |].
  destruct (query_failure_reporting "xprintidle" [] srv_down Hf)
    as (Hopen & _ & _ & _ & _ & _ & Hm).
  destruct (Hm eq_refl) as (Herr & _ & Hexit & _).
  split; [| exact Hexit].
  rewrite Herr. exact (Hopen eq_refl).
Defined.

(** C7: with [-v] or [--version] as first argument the program writes the
    one line [xprintidle 0.3.0] to stdout, nothing to stderr, makes no Xlib
    call at all (so opens no display), and exits with status 0, whatever the
    server would answer and whatever follows the flag. *)
Theorem version_prints_one_line (argv0 arg1 : string) (rest : list string)
    (srv : Server) :
  arg1 = "-v" \/ arg1 = "--version" ->
  let m := final (main argv0 (arg1 :: rest) srv) in
  w_stdout m = "xprintidle " ++ XPRINTIDLE_VERSION ++ nl /\
  count_lines (w_stdout m) = 1%nat /\
  w_stderr m = "" /\
  w_calls m = [] /\
  made_call CallXOpenDisplay m = false /\
  w_displays m = 0%nat /\
  exit_status (main argv0 (arg1 :: rest) srv) = 0%Z.
Proof.
  intros [-> | ->] m; subst m; repeat split; reflexivity.
Qed.

Lemma version_prints_one_line_witness :
  w_stdout (final (main "xprintidle" ["--version"] srv_down))
  = "xprintidle 0.3.0" ++ nl /\
  exit_status (main "xprintidle" ["--version"] srv_down) = 0%Z.
Proof.
  destruct (version_prints_one_line "xprintidle" "--version" [] srv_down
              (or_intror eq_refl)) as (Hout & _ & _ & _ & _ & _ & Hexit).
  split; [exact Hout | exact Hexit].
Defined.

(** ** The command line *)

(** Against C3 as stated: an argument after a valid flag is not looked at.
    [-v extra] prints the version and exits with status 0, it does not print
    the usage text and exit with status 1; [-H extra] queries the server and
    prints the idle time. *)
Lemma trailing_argument_ignored :
  exit_status (main "xprintidle" ["-v"; "extra"] srv_demo) = 0%Z /\
  w_stdout (final (main "xprintidle" ["-v"; "extra"] srv_demo))
  = "xprintidle 0.3.0" ++ nl /\
  ~ (w_stdout (final (main "xprintidle" ["-v"; "extra"] srv_demo))
     = usage_text "xprintidle" /\
     exit_status (main "xprintidle" ["-v"; "extra"] srv_demo) = 1%Z) /\
  made_call CallXOpenDisplay
    (final (main "xprintidle" ["-H"; "extra"] srv_demo)) = true /\
  w_stdout (final (main "xprintidle" ["-H"; "extra"] srv_demo))
  = "7 seconds" ++ nl.
Proof.
  repeat split; try reflexivity.
  intros [_ H]. vm_compute in H. discriminate.
Qed.

(** C3 (amended): only the first argument is inspected, whatever follows it
    changes nothing; when it is [-h] or [--help] the program prints the usage
    text to stdout and exits with status 1 without any Xlib call, so without
    querying the server or printing an idle value. *)
Theorem usage_on_help (argv0 arg1 : string) (rest : list string)
    (srv : Server) :
  arg1 = "-h" \/ arg1 = "--help" ->
  let m := final (main argv0 (arg1 :: rest) srv) in
  w_stdout m = usage_text argv0 /\
  w_stderr m = "" /\
  w_calls m = [] /\
  made_call CallXOpenDisplay m = false /\
  exit_status (main argv0 (arg1 :: rest) srv) = 1%Z /\
  (forall (a : string) (more : list string),
     run (main argv0 (a :: more) srv) = run (main argv0 [a] srv)).
Proof.
  intros [-> | ->] m; subst m; repeat split; reflexivity.
Qed.

Lemma usage_on_help_witness :
  w_stdout (final (main "xprintidle" ["--help"; "extra"] srv_demo))
  = usage_text "xprintidle" /\
  exit_status (main "xprintidle" ["--help"; "extra"] srv_demo) = 1%Z.
Proof.
  destruct (usage_on_help "xprintidle" "--help" ["extra"] srv_demo
              (or_intror eq_refl)) as (Hout & _ & _ & _ & Hexit & _).
  split; [exact Hout | exact Hexit].
Defined.

(** A first argument that is none of the flags reaches the query: the idle
    time is printed and the status is 0. *)
Example unknown_option_runs_query :
  run (main "xprintidle" ["--foo"] srv_demo)
  = run (main "xprintidle" [] srv_demo) /\
  w_stdout (final (main "xprintidle" ["--foo"] srv_demo)) = "7000" ++ nl /\
  exit_status (main "xprintidle" ["--foo"] srv_demo) = 0%Z.
Proof. repeat split; reflexivity. Qed.

(** ** The human-readable printer *)

Example human_90061000 :
  w_stdout (final (print_human_time 90061000))
  = "1 day, 1 hour, 1 minute, 1 second" ++ nl.
Proof. reflexivity. Qed.

Example human_0 :
  w_stdout (final (print_human_time 0)) = "0 milliseconds" ++ nl.
Proof. reflexivity. Qed.

Example human_2000 :
  w_stdout (final (print_human_time 2000)) = "2 seconds" ++ nl.
Proof. reflexivity. Qed.

Lemma string_app_assoc (a b c : string) : (a ++ b) ++ c = a ++ (b ++ c).
Proof. induction a as [| x a IH]; cbn; [reflexivity | now rewrite IH]. Qed.

Lemma string_app_nil_r (a : string) : a ++ "" = a.
Proof. induction a as [| x a IH]; cbn; [reflexivity | now rewrite IH]. Qed.

Lemma fmt_d_nonneg (n : Z) : (0 <= n)%Z -> fmt_d n = fmt_llu n.
Proof. destruct n; [reflexivity | reflexivity | lia]. Qed.

Lemma join_after_false (parts : list string) :
  join_after false parts =
  match parts with
  | [] => ""
  | _ => ", " ++ String.concat ", " parts
  end.
Proof.
  induction parts as [| p ps IH]; [reflexivity |].
  cbn [join_after]. rewrite IH.
  destruct ps as [| q qs].
  - cbn [String.concat]. now rewrite string_app_nil_r.
  - cbn [String.concat]. now rewrite !string_app_assoc.
Qed.

Lemma join_after_true (parts : list string) :
  join_after true parts = String.concat ", " parts.
Proof.
  destruct parts as [| p ps]; [reflexivity |].
  cbn [join_after]. rewrite join_after_false.
  destruct ps; [now rewrite string_app_nil_r | reflexivity].
Qed.

(** The loop, run on quotients that fit [int]: it writes the labels of the
    non-zero quotients and keeps [firstPrint] only if it wrote none. *)
Lemma print_units_run (units : list (Z * string)) :
  forall (time : Z) (firstPrint : bool) (w : World),
    (0 <= time)%Z ->
    Forall (fun u => 0 < fst u < ULONG_MAX1)%Z units ->
    Forall (fun q => q < 2 ^ 31)%Z (magnitudes (map fst units) time) ->
    let parts :=
      labels_spec (combine (magnitudes (map fst units) time)
                           (map snd units)) in
    runState (print_units units time firstPrint) w =
    (firstPrint && match parts with [] => true | _ => false end,
     add_stdout w (join_after firstPrint parts)).
Proof.
  induction units as [| [fac name] rest IH]; intros time fp w Ht Hf Hq.
  - cbn. unfold add_stdout. rewrite string_app_nil_r, andb_true_r.
    now destruct w.
  - inversion Hf as [| ? ? [Hfac1 Hfac2] Hf']; subst. cbn [fst] in *.
    cbn [map fst snd magnitudes] in Hq |- *.
    inversion Hq as [| ? ? Hq1 Hq']; subst.
    assert (Hq0 : (0 <= time / fac)%Z) by (apply Z.div_pos; lia).
    assert (Hm : (0 <= time mod fac)%Z) by (apply Z.mod_pos_bound; lia).
    cbn [print_units].
    rewrite (to_ulong_small fac) by (unfold is_ulong; lia).
    rewrite (to_int_small (time / fac)%Z)
      by (unfold is_int, INT_MIN, INT_MAX; lia).
    cbn [combine]. unfold labels_spec. cbn [filter fst].
    destruct (Z.eqb_spec (time / fac) 0) as [E0 | E0]; cbn [negb].
    + apply (IH _ fp w Hm Hf' Hq').
    + cbn [map join_after].
      rewrite (fmt_d_nonneg _ Hq0).
      unfold label_spec at 1 2. cbn [fst snd].
      destruct fp, (Z.eqb_spec (time / fac) 1) as [E1 | E1]; cbn [negb];
        cbn; fold (labels_spec (combine (magnitudes (map fst rest)
                                           (time mod fac)%Z) (map snd rest)));
        rewrite (IH _ false _ Hm Hf' Hq'); cbn [andb];
        unfold add_stdout; cbn [w_stdout w_stderr w_displays w_infos w_calls];
        rewrite ?string_app_assoc, ?string_app_nil_r; cbn;
        rewrite ?string_app_assoc; cbn; reflexivity.
Qed.

Lemma runState_bind {A B : Type} (m : X A) (f : A -> X B) (w : World) :
  runState (x <- m ;; f x) w =
  runState (f (fst (runState m w))) (snd (runState m w)).
Proof. cbn. now destruct (runState m w). Qed.

Lemma magnitudes_convFacs (time : Z) :
  magnitudes convFacs time = components_spec time.
Proof.
  change convFacs with [86400000; 3600000; 60000; 1000; 1]%Z.
  cbn [magnitudes]. unfold components_spec.
  rewrite (Z.mod_mod_divide time 86400000 3600000) by (now exists 24%Z).
  rewrite (Z.mod_mod_divide time 3600000 60000) by (now exists 60%Z).
  rewrite (Z.mod_mod_divide time 60000 1000) by (now exists 60%Z).
  reflexivity.
Qed.

Lemma components_fit_int (time : Z) :
  (0 <= time < 2 ^ 31 * 86400000)%Z ->
  Forall (fun q => q < 2 ^ 31)%Z (components_spec time).
Proof.
  intros Ht. unfold components_spec.
  pose proof (Z.mod_pos_bound time 86400000 ltac:(lia)).
  pose proof (Z.mod_pos_bound time 3600000 ltac:(lia)).
  pose proof (Z.mod_pos_bound time 60000 ltac:(lia)).
  pose proof (Z.mod_pos_bound time 1000 ltac:(lia)).
  repeat constructor; apply Z.div_lt_upper_bound; lia.
Qed.

(** X1: below 2^31 days the printer writes the format of the spec: the
    non-zero components with their units, plural unless the magnitude is 1,
    separated by commas, and [0 milliseconds] for a zero duration. *)
Lemma print_human_time_agrees (time : Z) :
  (0 <= time < 2 ^ 31 * 86400000)%Z ->
  w_stdout (final (print_human_time time)) = human_readable_spec time ++ nl.
Proof.
  intros Ht. unfold final, run, print_human_time.
  rewrite runState_bind.
  assert (Hf : Forall (fun u => 0 < fst u < ULONG_MAX1)%Z
                 (combine convFacs names)).
  { repeat constructor. }
  assert (Hmap : map fst (combine convFacs names) = convFacs) by reflexivity.
  assert (Hsnd : map snd (combine convFacs names) = names) by reflexivity.
  pose proof (print_units_run (combine convFacs names) time true world0
                (proj1 Ht) Hf) as Hrun.
  rewrite Hmap, Hsnd, magnitudes_convFacs in Hrun.
  specialize (Hrun (components_fit_int time Ht)). cbv zeta in Hrun.
  rewrite Hrun. cbn [fst snd andb].
  unfold human_readable_spec. rewrite join_after_true.
  destruct (labels_spec (combine (components_spec time) names)) as [| p ps].
  - reflexivity.
  - reflexivity.
Qed.

(** C6: the decomposition is not printed for every 64-bit duration.  The
    number of days is stored in an [int]: at 2^31 days, a [uint64_t] value,
    the quotient 2147483648 is printed as a negative number, and at 2^32 days
    it is taken for zero, so the whole duration prints as 0 milliseconds;
    the format of the spec has 2147483648 days and 4294967296 days there.
    The program prints the same when the server reports such an idle time. *)
Theorem print_human_time_day_overflow :
  is_ulong 185542587187200000 /\
  (185542587187200000 / 86400000 = 2147483648)%Z /\
  w_stdout (final (print_human_time 185542587187200000))
  = "-2147483648 days" ++ nl /\
  is_ulong 371085174374400000 /\
  (371085174374400000 / 86400000 = 4294967296)%Z /\
  w_stdout (final (print_human_time 371085174374400000))
  = "0 milliseconds" ++ nl /\
  human_readable_spec 185542587187200000 = "2147483648 days" /\
  human_readable_spec 371085174374400000 = "4294967296 days" /\
  w_stdout (final (main "xprintidle" ["-H"]
                     (mkServer true true true true 185542587187200000
                               12000000 dpms_demo)))
  = "-2147483648 days" ++ nl.
Proof.
  repeat split; try reflexivity; vm_compute; congruence.
Qed.

(** * Further properties *)

(** ** The printer *)

Lemma print_human_time_agrees_witness :
  (0 <= 93784005 < 2 ^ 31 * 86400000)%Z /\
  w_stdout (final (print_human_time 93784005))
  = "1 day, 2 hours, 3 minutes, 4 seconds, 5 milliseconds" ++ nl.
Proof.
  assert (Ht : (0 <= 93784005 < 2 ^ 31 * 86400000)%Z)
    by (vm_compute; intuition congruence).
  split; [exact Ht |].
  exact (print_human_time_agrees 93784005 Ht).
Defined.

Lemma count_lines_app (a b : string) :
  count_lines (a ++ b) = (count_lines a + count_lines b)%nat.
Proof.
  induction a as [| c a IH]; cbn [append count_lines]; [reflexivity |].
  rewrite IH. lia.
Qed.

Lemma count_lines_uint (d : Decimal.uint) :
  count_lines (NilEmpty.string_of_uint d) = 0%nat.
Proof. induction d; cbn; assumption || reflexivity. Qed.

Lemma count_lines_fmt_d (n : Z) : count_lines (fmt_d n) = 0%nat.
Proof.
  unfold fmt_d, NilZero.string_of_int, NilZero.string_of_uint.
  destruct (Z.to_int n) as [d | d]; destruct d;
    try reflexivity; try apply count_lines_uint;
    cbn [count_lines]; try apply (count_lines_uint (_ d)).
Qed.

Lemma count_lines_fmt_llu (n : Z) : count_lines (fmt_llu n) = 0%nat.
Proof.
  unfold fmt_llu, NilZero.string_of_uint.
  destruct (N.to_uint (Z.to_N n)) as [| d | d | d | d | d | d | d | d | d | d];
    try reflexivity; apply (count_lines_uint (_ d)).
Qed.

Lemma add_stdout_twice (w : World) (a b : string) :
  add_stdout (add_stdout w a) b = add_stdout w (a ++ b).
Proof. unfold add_stdout. cbn. now rewrite string_app_assoc. Qed.

(** One round of the loop with a non-zero quotient. *)
Lemma print_units_step (fac : Z) (name : string) (rest : list (Z * string))
    (time : Z) (firstPrint : bool) (w : World) :
  let mag := to_int (time / to_ulong fac) in
  (mag =? 0)%Z = false ->
  runState (print_units ((fac, name) :: rest) time firstPrint) w =
  runState (print_units rest (time mod to_ulong fac)%Z false)
    (add_stdout w ((if firstPrint then "" else ", ") ++
                   (fmt_d mag ++ " " ++ name) ++
                   (if (mag =? 1)%Z then "" else "s"))).
Proof.
  intros mag Hmag. cbn [print_units]. fold mag. rewrite Hmag.
  destruct firstPrint, (mag =? 1)%Z; cbn; unfold add_stdout;
    rewrite ?string_app_assoc, ?string_app_nil_r; cbn;
    rewrite ?string_app_assoc, ?string_app_nil_r; reflexivity.
Qed.

(** The loop only appends to stdout, the same text from every world, and
    never a line feed, whatever the quotients are. *)
Lemma print_units_appends (units : list (Z * string)) :
  Forall (fun u => count_lines (snd u) = 0%nat) units ->
  forall (time : Z) (firstPrint : bool),
  exists (out : string) (firstPrint' : bool),
    (forall w : World,
       runState (print_units units time firstPrint) w
       = (firstPrint', add_stdout w out)) /\
    count_lines out = 0%nat.
Proof.
  induction 1 as [| [fac name] rest Hname _ IH]; intros time fp.
  - exists "", fp. split; [| reflexivity].
    intros w. cbn. unfold add_stdout. rewrite string_app_nil_r.
    now destruct w.
  - cbn [snd] in Hname.
    destruct (to_int (time / to_ulong fac) =? 0)%Z eqn:Hmag.
    + destruct (IH (time mod to_ulong fac)%Z fp) as (out & fp' & Hout & Hn).
      exists out, fp'. split; [| exact Hn].
      intros w. cbn [print_units]. rewrite Hmag. apply Hout.
    + destruct (IH (time mod to_ulong fac)%Z false)
        as (out & fp' & Hout & Hn).
      eexists _, fp'. split.
      * intros w.
        rewrite (print_units_step fac name rest time fp w Hmag).
        rewrite Hout, add_stdout_twice. reflexivity.
      * rewrite !count_lines_app, Hn, Hname, count_lines_fmt_d.
        destruct fp, (_ =? 1)%Z; reflexivity.
Qed.

(** What [print_human_time] does to a world: one more line on stdout. *)
Lemma print_human_time_run (time : Z) :
  exists out : string,
    (forall w : World,
       runState (print_human_time time) w = (tt, add_stdout w (out ++ nl))) /\
    count_lines out = 0%nat.
Proof.
  assert (Hnames : Forall (fun u => count_lines (snd u) = 0%nat)
                     (combine convFacs names)) by (repeat constructor).
  destruct (print_units_appends _ Hnames time true)
    as (out & fp & Hout & Hn).
  destruct fp.
  - exists (out ++ "0 milliseconds"). split.
    + intros w. unfold print_human_time. rewrite runState_bind, Hout.
      cbn. unfold add_stdout. cbn. now rewrite !string_app_assoc.
    + now rewrite count_lines_app, Hn.
  - exists out. split.
    + intros w. unfold print_human_time. rewrite runState_bind, Hout.
      cbn. unfold add_stdout. cbn. now rewrite ?string_app_assoc.
    + exact Hn.
Qed.

(** X2: for every argument, in range or not, [print_human_time] appends
    exactly one line to stdout (a text without line feed, then the line
    feed), the same from every world, and changes nothing else. *)
Theorem print_human_time_one_line (time : Z) :
  exists out : string,
    (forall w : World,
       runState (print_human_time time) w = (tt, add_stdout w (out ++ nl))) /\
    count_lines out = 0%nat /\
    count_lines (out ++ nl) = 1%nat.
Proof.
  destruct (print_human_time_run time) as (out & Hrun & Hn).
  exists out. split; [exact Hrun | split; [exact Hn |]].
  now rewrite count_lines_app, Hn.
Qed.

(** X3: the quotients the loop goes through (before they are narrowed to
    [int]) are a decomposition of the duration: hours below 24, minutes and
    seconds below 60, milliseconds below 1000, and days, hours, minutes,
    seconds and milliseconds add up to the duration again. *)
Theorem magnitudes_decompose (time : Z) :
  (0 <= time)%Z ->
  exists d h m s ms : Z,
    magnitudes convFacs time = [d; h; m; s; ms] /\
    (0 <= d /\ 0 <= h < 24 /\ 0 <= m < 60 /\ 0 <= s < 60 /\ 0 <= ms < 1000)%Z /\
    (d * 86400000 + h * 3600000 + m * 60000 + s * 1000 + ms = time)%Z.
Proof.
  intros Ht.
  change convFacs with [86400000; 3600000; 60000; 1000; 1]%Z.
  cbn [magnitudes].
  set (r1 := (time mod 86400000)%Z).
  set (r2 := (r1 mod 3600000)%Z).
  set (r3 := (r2 mod 60000)%Z).
  set (r4 := (r3 mod 1000)%Z).
  exists (time / 86400000)%Z, (r1 / 3600000)%Z, (r2 / 60000)%Z,
    (r3 / 1000)%Z, (r4 / 1)%Z.
  split; [reflexivity |].
  pose proof (Z.div_mod time 86400000 ltac:(lia)) as E1.
  pose proof (Z.div_mod r1 3600000 ltac:(lia)) as E2.
  pose proof (Z.div_mod r2 60000 ltac:(lia)) as E3.
  pose proof (Z.div_mod r3 1000 ltac:(lia)) as E4.
  pose proof (Z.mod_pos_bound time 86400000 ltac:(lia)) as B1.
  pose proof (Z.mod_pos_bound r1 3600000 ltac:(lia)) as B2.
  pose proof (Z.mod_pos_bound r2 60000 ltac:(lia)) as B3.
  pose proof (Z.mod_pos_bound r3 1000 ltac:(lia)) as B4.
  fold r1 in E1, B1. fold r2 in E2, B2. fold r3 in E3, B3. fold r4 in E4, B4.
  rewrite Z.div_1_r.
  assert (0 <= time / 86400000)%Z by (apply Z.div_pos; lia).
  assert (0 <= r1 / 3600000 < 24)%Z
    by (split; [apply Z.div_pos | apply Z.div_lt_upper_bound]; lia).
  assert (0 <= r2 / 60000 < 60)%Z
    by (split; [apply Z.div_pos | apply Z.div_lt_upper_bound]; lia).
  assert (0 <= r3 / 1000 < 60)%Z
    by (split; [apply Z.div_pos | apply Z.div_lt_upper_bound]; lia).
  repeat split; lia.
Qed.

Lemma magnitudes_decompose_witness :
  (0 <= 90061000)%Z /\
  magnitudes convFacs 90061000 = [1; 1; 1; 1; 0]%Z.
Proof.
  assert (Ht : (0 <= 90061000)%Z) by (vm_compute; congruence).
  split; [exact Ht |].
  destruct (magnitudes_decompose 90061000 Ht)
    as (d & h & m & s & ms & E & _ & _).
  reflexivity.
Defined.

(** ** The workaround, further *)

Lemma workaround_as_threshold (d : DPMS) (raw : Z) :
  wf_DPMS d -> is_ulong raw ->
  workaroundCreepyXServer d raw = add_below_spec raw (mode_threshold d).
Proof.
  intros Hd Hr. rewrite (workaround_closed_form d raw Hd Hr).
  unfold mode_threshold, add_below_spec.
  destruct Hr as [Hr _].
  repeat match goal with
         | |- context [if ?b then _ else _] => destruct b eqn:?
         end; try reflexivity; try lia.
Qed.

Lemma mode_threshold_range (d : DPMS) :
  wf_DPMS d -> (0 <= mode_threshold d <= 196605000)%Z.
Proof.
  unfold wf_DPMS, is_card16, CARD16_MAX1, mode_threshold.
  intros (Hs & Hu & Ho & _).
  repeat match goal with
         | |- context [if ?b then _ else _] => destruct b
         end; lia.
Qed.

(** X4: the value the workaround returns is never below the cumulative
    timeout of the power mode the server is in, and is either the raw value
    or the raw value plus that timeout. *)
Theorem workaround_reaches_threshold (d : DPMS) (raw : Z) :
  wf_DPMS d -> is_ulong raw ->
  (mode_threshold d <= workaroundCreepyXServer d raw)%Z /\
  (workaroundCreepyXServer d raw = raw \/
   workaroundCreepyXServer d raw = raw + mode_threshold d)%Z /\
  (workaroundCreepyXServer d raw < Z.max (raw + 1) (2 * mode_threshold d))%Z.
Proof.
  intros Hd Hr. rewrite (workaround_as_threshold d raw Hd Hr).
  pose proof (mode_threshold_range d Hd).
  unfold add_below_spec. destruct Hr as [Hr _].
  destruct (Z.ltb_spec raw (mode_threshold d)); repeat split; auto; lia.
Qed.

Lemma workaround_reaches_threshold_witness :
  wf_DPMS dpms_demo /\ is_ulong 100 /\
  (5000 <= workaroundCreepyXServer dpms_demo 100)%Z.
Proof.
  assert (Hd : wf_DPMS dpms_demo) by (vm_compute; intuition congruence).
  assert (Hr : is_ulong 100) by (vm_compute; intuition congruence).
  split; [exact Hd | split; [exact Hr |]].
  exact (proj1 (workaround_reaches_threshold dpms_demo 100 Hd Hr)).
Defined.

(** X5: the workaround is not monotone at the timeout: of two raw values on
    either side of a non-zero cumulative timeout and less than the timeout
    apart, the smaller one gets the larger result; one millisecond below the
    timeout [T] gives [2 * T - 1], the timeout itself gives [T]. *)
Theorem workaround_jump_at_threshold (d : DPMS) (raw1 raw2 : Z) :
  wf_DPMS d ->
  (0 <= raw1 < mode_threshold d)%Z ->
  (mode_threshold d <= raw2 < raw1 + mode_threshold d)%Z ->
  (workaroundCreepyXServer d raw2 < workaroundCreepyXServer d raw1)%Z /\
  (workaroundCreepyXServer d (mode_threshold d - 1)
   = 2 * mode_threshold d - 1)%Z /\
  workaroundCreepyXServer d (mode_threshold d) = mode_threshold d.
Proof.
  intros Hd H1 H2.
  pose proof (mode_threshold_range d Hd) as HT.
  assert (U : forall x, (0 <= x < 2 * 196605000)%Z -> is_ulong x)
    by (intros x Hx; unfold is_ulong, ULONG_MAX1; lia).
  rewrite !(workaround_as_threshold d) by (auto; apply U; lia).
  unfold add_below_spec.
  repeat match goal with
         | |- context [(?a <? ?b)%Z] => destruct (Z.ltb_spec a b)
         end; repeat split; lia.
Qed.

Lemma workaround_jump_at_threshold_witness :
  wf_DPMS dpms_demo /\
  (workaroundCreepyXServer dpms_demo 5000
   < workaroundCreepyXServer dpms_demo 4999)%Z.
Proof.
  assert (Hd : wf_DPMS dpms_demo) by (vm_compute; intuition congruence).
  split; [exact Hd |].
  exact (proj1 (workaround_jump_at_threshold dpms_demo 4999 5000 Hd
                  ltac:(vm_compute; intuition congruence)
                  ltac:(vm_compute; intuition congruence))).
Defined.

(** ** The program as a whole *)

Ltac run_query_in srv :=
  unfold get_x_idletime, XOpenDisplay, XScreenSaverQueryExtension,
    XScreenSaverAllocInfo, XScreenSaverQueryInfo, VendorRelease;
  destruct (open_display srv), (saver_extension srv), (alloc_info srv),
    (query_info srv); cbn.

(** What the query leaves behind, from any world: on success nothing but
    calls in the log; on failure one more line on stderr. *)
Lemma get_x_idletime_run (srv : Server) (w : World) :
  let r := fst (runState (get_x_idletime srv) w) in
  let w' := snd (runState (get_x_idletime srv) w) in
  w_stdout w' = w_stdout w /\
  w_displays w' = w_displays w /\
  w_infos w' = w_infos w /\
  match r with
  | Some _ => w_stderr w' = w_stderr w
  | None => exists msg, w_stderr w' = w_stderr w ++ msg /\
                        count_lines msg = 1%nat
  end.
Proof.
  run_query_in srv; repeat split; try reflexivity;
    eexists; split; reflexivity.
Qed.

(** The part of [main] after the options: the query, then the output. *)
Lemma query_and_print_run (srv : Server) (human : bool) (w : World) :
  let e := fst (runState (query_and_print srv human) w) in
  let w' := snd (runState (query_and_print srv human) w) in
  w_displays w' = w_displays w /\ w_infos w' = w_infos w /\
  ((e = 0%Z /\ w_stderr w' = w_stderr w /\
    exists out, w_stdout w' = w_stdout w ++ out ++ nl /\
                count_lines out = 0%nat) \/
   (e = 1%Z /\ w_stdout w' = w_stdout w /\
    exists msg, w_stderr w' = w_stderr w ++ msg /\ count_lines msg = 1%nat)).
Proof.
  intros e w'. subst e w'. unfold query_and_print. rewrite runState_bind.
  destruct (get_x_idletime_run srv w) as (Hout & Hd & Hi & Hr).
  destruct (runState (get_x_idletime srv) w) as [[idle |] w1];
    cbn [fst snd] in *.
  - destruct human.
    + rewrite runState_bind.
      destruct (print_human_time_run idle) as (out & E & Hn).
      rewrite E. cbn. rewrite Hout, Hd, Hi, Hr.
      repeat split. left. repeat split. now exists out.
    + cbn. rewrite Hout, Hd, Hi, Hr.
      repeat split. left. repeat split.
      exists (fmt_llu idle). split; [reflexivity | apply count_lines_fmt_llu].
  - cbn. rewrite Hout, Hd, Hi. repeat split. right. repeat split. exact Hr.
Qed.

Lemma main_unfold (argv0 : string) (args : list string) (srv : Server) :
  main argv0 args srv =
  match args with
  | [] => query_and_print srv false
  | arg1 :: _ =>
      if (arg1 =? "-v") || (arg1 =? "--version") then
        print_version ;; ret EXIT_SUCCESS
      else if (arg1 =? "-H") || (arg1 =? "--human-readable") then
        query_and_print srv true
      else if (arg1 =? "-h") || (arg1 =? "--help") then
        print_usage argv0 ;; ret EXIT_FAILURE
      else query_and_print srv false
  end.
Proof. reflexivity. Qed.

(** X6: every run of the program ends in one of three ways: status 0 with
    exactly one line on stdout and nothing on stderr; status 1 with the usage
    text on stdout, nothing on stderr and no Xlib call; status 1 with nothing
    on stdout and exactly one line on stderr. *)
Theorem main_output_contract (argv0 : string) (args : list string)
    (srv : Server) :
  let e := exit_status (main argv0 args srv) in
  let m := final (main argv0 args srv) in
  (e = 0%Z /\ w_stderr m = "" /\ count_lines (w_stdout m) = 1%nat) \/
  (e = 1%Z /\ w_stdout m = usage_text argv0 /\ w_stderr m = "" /\
   w_calls m = []) \/
  (e = 1%Z /\ w_stdout m = "" /\ count_lines (w_stderr m) = 1%nat).
Proof.
  intros e m. subst e m. unfold exit_status, final, run.
  rewrite main_unfold.
  assert (Q : forall human,
    let e := fst (runState (query_and_print srv human) world0) in
    let m := snd (runState (query_and_print srv human) world0) in
    (e = 0%Z /\ w_stderr m = "" /\ count_lines (w_stdout m) = 1%nat) \/
    (e = 1%Z /\ w_stdout m = usage_text argv0 /\ w_stderr m = "" /\
     w_calls m = []) \/
    (e = 1%Z /\ w_stdout m = "" /\ count_lines (w_stderr m) = 1%nat)).
  { intros human.
    destruct (query_and_print_run srv human world0)
      as (_ & _ & [(He & Herr & out & Hout & Hn)
                  | (He & Hout & msg & Herr & Hn)]).
    - left. repeat split; [exact He | exact Herr |].
      rewrite Hout. cbn [w_stdout world0 append].
      now rewrite count_lines_app, Hn.
    - right. right. repeat split; [exact He | exact Hout |].
      rewrite Herr. cbn [w_stderr world0 append]. exact Hn. }
  destruct args as [| arg1 rest]; [apply Q |].
  destruct (_ || _); [left; repeat split; reflexivity |].
  destruct (_ || _); [apply Q |].
  destruct (_ || _); [right; left; repeat split; reflexivity | apply Q].
Qed.

(** X7: whatever the arguments and the server, the program leaves as many
    display connections open and info blocks allocated as it found. *)
Theorem main_releases_everything (argv0 : string) (args : list string)
    (srv : Server) (w : World) :
  w_displays (snd (runState (main argv0 args srv) w)) = w_displays w /\
  w_infos (snd (runState (main argv0 args srv) w)) = w_infos w.
Proof.
  rewrite main_unfold.
  assert (Q : forall human,
    w_displays (snd (runState (query_and_print srv human) w)) = w_displays w /\
    w_infos (snd (runState (query_and_print srv human) w)) = w_infos w).
  { intros human.
    destruct (query_and_print_run srv human w) as (Hd & Hi & _).
    now split. }
  destruct args as [| arg1 rest]; [apply Q |].
  destruct (_ || _); [split; reflexivity |].
  destruct (_ || _); [apply Q |].
  destruct (_ || _); [split; reflexivity | apply Q].
Qed.

(** X8: a first argument that is none of the six option spellings is
    ignored: the run is the run without arguments, from any world. *)
Theorem unknown_option_as_no_option (argv0 arg1 : string)
    (rest : list string) (srv : Server) (w : World) :
  known_option arg1 = false ->
  runState (main argv0 (arg1 :: rest) srv) w
  = runState (main argv0 [] srv) w.
Proof.
  unfold known_option. intros H.
  repeat (apply orb_false_iff in H; destruct H as [H ?]).
  rewrite !main_unfold.
  repeat match goal with E : (_ =? _) = false |- _ => rewrite E; clear E end.
  reflexivity.
Qed.

Lemma unknown_option_as_no_option_witness :
  runState (main "xprintidle" ["--foo"; "bar"] srv_demo) world0
  = runState (main "xprintidle" [] srv_demo) world0.
Proof.
  exact (unknown_option_as_no_option "xprintidle" "--foo" ["bar"] srv_demo
           world0 eq_refl).
Defined.

(** X9: [-H] and [--human-readable] change the format only: the Xlib calls,
    stderr and the exit status are those of the run without arguments, and
    when the query succeeds with value [v] stdout holds what
    [print_human_time v] prints, where the run without arguments has [v] in
    decimal. *)
Theorem human_flag_only_formats (argv0 arg1 : string) (rest : list string)
    (srv : Server) :
  arg1 = "-H" \/ arg1 = "--human-readable" ->
  let h := main argv0 (arg1 :: rest) srv in
  let p := main argv0 [] srv in
  w_calls (final h) = w_calls (final p) /\
  w_stderr (final h) = w_stderr (final p) /\
  exit_status h = exit_status p /\
  (forall v, exit_status (get_x_idletime srv) = Some v ->
     w_stdout (final h) = w_stdout (final (print_human_time v)) /\
     w_stdout (final p) = fmt_llu v ++ nl).
Proof.
  intros Harg h p. subst h p.
  assert (E : main argv0 (arg1 :: rest) srv = query_and_print srv true)
    by (destruct Harg; subst arg1; reflexivity).
  rewrite E, main_unfold. clear E Harg.
  unfold exit_status, final, run, query_and_print.
  rewrite !runState_bind.
  destruct (runState (get_x_idletime srv) world0) as [[idle |] w1] eqn:Eq;
    cbn [fst snd].
  - destruct (print_human_time_run idle) as (out & Hrun & _).
    rewrite runState_bind, !Hrun.
    pose proof (get_x_idletime_run srv world0) as (Hout & _ & _ & _).
    rewrite Eq in Hout. cbn [fst snd] in Hout.
    repeat (split; [reflexivity |]).
    intros v Hv. injection Hv as <-. rewrite Hrun.
    cbn. rewrite Hout. split; reflexivity.
  - repeat (split; [reflexivity |]). intros v Hv. discriminate.
Qed.

Lemma human_flag_only_formats_witness :
  w_stdout (final (main "xprintidle" ["-H"] srv_demo)) = "7 seconds" ++ nl /\
  w_stdout (final (main "xprintidle" [] srv_demo)) = "7000" ++ nl.
Proof.
  destruct (human_flag_only_formats "xprintidle" "-H" [] srv_demo
              (or_introl eq_refl)) as (_ & _ & _ & Hv).
  exact (Hv 7000%Z eq_refl).
Defined.

Lemma query_and_print_status (srv : Server) (human : bool) (w : World) :
  fst (runState (query_and_print srv human) w) =
  match fst (runState (get_x_idletime srv) w) with
  | Some _ => EXIT_SUCCESS
  | None => EXIT_FAILURE
  end.
Proof.
  unfold query_and_print. rewrite runState_bind.
  destruct (runState (get_x_idletime srv) w) as [[idle |] w1];
    cbn [fst snd]; [| reflexivity].
  destruct human; [| reflexivity].
  rewrite runState_bind.
  destruct (print_human_time_run idle) as (out & Hrun & _).
  now rewrite Hrun.
Qed.

(** X10: a run that gets as far as opening the display exits with status 0
    exactly when all four steps of the query succeed, and with status 1
    otherwise, with or without [-H]. *)
Theorem main_status_follows_query (argv0 : string) (args : list string)
    (srv : Server) :
  made_call CallXOpenDisplay (final (main argv0 args srv)) = true ->
  (exit_status (main argv0 args srv) = 0%Z <->
   open_display srv && saver_extension srv && alloc_info srv &&
   query_info srv = true) /\
  (exit_status (main argv0 args srv) = 1%Z <->
   open_display srv && saver_extension srv && alloc_info srv &&
   query_info srv = false).
Proof.
  assert (Q : forall human,
    (fst (runState (query_and_print srv human) world0) = 0%Z <->
     open_display srv && saver_extension srv && alloc_info srv &&
     query_info srv = true) /\
    (fst (runState (query_and_print srv human) world0) = 1%Z <->
     open_display srv && saver_extension srv && alloc_info srv &&
     query_info srv = false)).
  { intros human. rewrite query_and_print_status.
    pose proof (query_fails_iff srv) as F.
    unfold exit_status, run in F.
    destruct (fst (runState (get_x_idletime srv) world0)) as [v |].
    - assert (E : open_display srv && saver_extension srv && alloc_info srv
                  && query_info srv = true).
      { destruct (_ && _); [reflexivity |].
        destruct F as [_ F]. discriminate (F eq_refl). }
      rewrite E. unfold EXIT_SUCCESS. split; split; intros; congruence.
    - rewrite (proj1 F eq_refl). unfold EXIT_FAILURE.
      split; split; intros; congruence. }
  unfold exit_status, final, run. rewrite main_unfold.
  destruct args as [| arg1 rest]; [intros _; apply Q |].
  destruct (_ || _); [cbn; discriminate |].
  destruct (_ || _); [intros _; apply Q |].
  destruct (_ || _); [cbn; discriminate | intros _; apply Q].
Qed.

Lemma main_status_follows_query_witness :
  exit_status (main "xprintidle" ["-H"] srv_down) = 1%Z.
Proof.
  exact (proj2 (proj2 (main_status_follows_query "xprintidle" ["-H"] srv_down
                         eq_refl)) eq_refl).
Defined.

(** ** The earlier versions *)

Lemma nested_workaround_eq (d : DPMS) (idleTime : Z) :
  Part000.workaroundCreepyXServer d idleTime
  = workaroundCreepyXServer d idleTime.
Proof.
  unfold Part000.workaroundCreepyXServer, workaroundCreepyXServer.
  destruct (dpms_extension d), (dpms_capable d), (onoff d); reflexivity.
Qed.

Lemma part001b_query_eq (srv : Server) (w : World) :
  runState (Part001b.get_x_idletime srv) w = runState (get_x_idletime srv) w.
Proof.
  unfold Part001b.get_x_idletime, Part001b.workaroundCreepyXServer,
    get_x_idletime, idle_for_release.
  rewrite nested_workaround_eq. reflexivity.
Qed.

(** X11: the workaround with nested tests of the earlier versions and the
    one with early returns compute the same value for every DPMS answer and
    every idle time, in range or not; so the query of the second program of
    [part_001] is the query of [xprintidle.c]. *)
Theorem workaround_versions_agree (d : DPMS) (idleTime : Z) :
  Part000.workaroundCreepyXServer d idleTime
  = workaroundCreepyXServer d idleTime /\
  Part001a.workaroundCreepyXServer d idleTime
  = workaroundCreepyXServer d idleTime /\
  Part001b.workaroundCreepyXServer d idleTime
  = workaroundCreepyXServer d idleTime /\
  (forall (srv : Server) (w : World),
     runState (Part001b.get_x_idletime srv) w
     = runState (get_x_idletime srv) w).
Proof.
  split; [apply nested_workaround_eq |].
  split; [apply nested_workaround_eq |].
  split; [apply nested_workaround_eq |].
  exact part001b_query_eq.
Qed.

(** X12: in the second program of [part_001] every first argument other
    than [-v] and [--version] gets the usage text on stdout and status 1,
    without any Xlib call, whatever follows it. *)
Theorem part001b_usage_on_other_argument (argv0 arg1 : string)
    (rest : list string) (srv : Server) :
  arg1 <> "-v" -> arg1 <> "--version" ->
  let m := final (Part001b.main argv0 (arg1 :: rest) srv) in
  w_stdout m = Part001b.usage_text argv0 /\
  w_stderr m = "" /\
  w_calls m = [] /\
  exit_status (Part001b.main argv0 (arg1 :: rest) srv) = 1%Z.
Proof.
  intros H1 H2 m. subst m.
  apply String.eqb_neq in H1, H2.
  unfold exit_status, final, run, Part001b.main. rewrite H1, H2.
  repeat split; reflexivity.
Qed.

Lemma part001b_usage_on_other_argument_witness :
  w_stdout (final (Part001b.main "xprintidle" ["--foo"] srv_demo))
  = Part001b.usage_text "xprintidle" /\
  exit_status (Part001b.main "xprintidle" ["--foo"] srv_demo) = 1%Z.
Proof.
  destruct (part001b_usage_on_other_argument "xprintidle" "--foo" []
              srv_demo ltac:(discriminate) ltac:(discriminate))
    as (Hout & _ & _ & Hexit).
  split; [exact Hout | exact Hexit].
Defined.

(** X13: without arguments, and with [-v] or [--version] first, the second
    program of [part_001] and [xprintidle.c] run alike from any world:
    same status, same output, same Xlib calls. *)
Theorem part001b_agrees_without_new_options (argv0 : string)
    (rest : list string) (srv : Server) (w : World) :
  runState (Part001b.main argv0 [] srv) w = runState (main argv0 [] srv) w /\
  runState (Part001b.main argv0 ("-v" :: rest) srv) w
  = runState (main argv0 ("-v" :: rest) srv) w /\
  runState (Part001b.main argv0 ("--version" :: rest) srv) w
  = runState (main argv0 ("--version" :: rest) srv) w.
Proof.
  split; [| split; reflexivity].
  rewrite main_unfold. unfold Part001b.main, query_and_print.
  rewrite !runState_bind.
  rewrite part001b_query_eq. reflexivity.
Qed.

Ltac run_part000 srv :=
  unfold exit_status, final, run, Part000.main, Part001a.main, XOpenDisplay,
    XScreenSaverQueryExtension, XScreenSaverAllocInfo, XScreenSaverQueryInfo,
    VendorRelease;
  destruct (open_display srv) eqn:?, (saver_extension srv) eqn:?,
    (alloc_info srv) eqn:?, (query_info srv) eqn:?; cbn.

(** X14: without arguments, the program of [part_000] and [xprintidle.c]
    give the same status and write the same to stdout and stderr, for every
    server. *)
Theorem part000_same_output (argv0 : string) (srv : Server) :
  is_ulong (ssi_idle srv) ->
  let o := Part000.main argv0 [] srv in
  let n := main argv0 [] srv in
  exit_status o = exit_status n /\
  w_stdout (final o) = w_stdout (final n) /\
  w_stderr (final o) = w_stderr (final n).
Proof.
  intros Hr o n. subst o n. rewrite main_unfold.
  unfold exit_status, final, run, query_and_print, Part000.main.
  rewrite runState_bind.
  run_query_in srv; repeat split; try reflexivity.
  rewrite nested_workaround_eq. unfold idle_for_release.
  destruct (_ <? _)%Z;
    now rewrite to_ulong_small by auto using workaround_ulong.
Qed.

Lemma part000_same_output_witness :
  is_ulong 2000 /\
  w_stdout (final (Part000.main "xprintidle" [] srv_demo)) = "7000" ++ nl.
Proof.
  assert (Hr : is_ulong 2000) by (vm_compute; intuition congruence).
  split; [exact Hr |].
  destruct (part000_same_output "xprintidle" srv_demo Hr) as (_ & Hout & _).
  rewrite Hout. reflexivity.
Defined.

(** X15: the program of [part_000] closes the display on the success path
    only: after a failure behind a successful [XOpenDisplay] the connection
    is still open when [main] returns, and after a failed
    [XScreenSaverQueryInfo] the info block is still allocated. *)
Theorem part000_closes_on_success_only (argv0 : string) (srv : Server) :
  let m := final (Part000.main argv0 [] srv) in
  w_displays m =
    (if open_display srv &&
        negb (saver_extension srv && alloc_info srv && query_info srv)
     then 1 else 0)%nat /\
  w_infos m =
    (if open_display srv && saver_extension srv && alloc_info srv &&
        negb (query_info srv)
     then 1 else 0)%nat /\
  count_call CallXCloseDisplay (w_calls m) =
    (if open_display srv && saver_extension srv && alloc_info srv &&
        query_info srv
     then 1 else 0)%nat.
Proof.
  run_part000 srv; repeat split; reflexivity.
Qed.


